(** * oemof.solph.network: Flow, transformers and the solph EnergySystem

    A shallow embedding of [src/oemof/solph/network.py] and the
    properties of its constructors.

    Python values are embedded in one universe [value]; keyword
    arguments ([**kwargs]) and the attribute dictionary of an instance
    are finite maps from names to values; a constructor runs in a small
    state-and-exception monad whose state is the instance under
    construction together with the warnings emitted so far. *)

From Stdlib Require Import ZArith SpecFloat.
From stdpp Require Import gmap strings list fin_maps.

Local Open Scope Z_scope.
Set Warnings "-register-all".

(** ** Python values *)

(** The part of Python's value universe that the module handles:
    [None], booleans, integers, floats (IEEE 754 doubles, as
    [spec_float]), lists, instances of plain classes (identified by
    their identity: [Bus], [Investment], [BinaryFlow], ...), and the
    constant time series built by [sequence]. *)
Inductive value : Type :=
| VNone
| VBool (b : bool)
| VInt (n : Z)
| VFloat (f : spec_float)
| VList (l : list value)
| VObj (o : positive)
| VSeq (default : value).

(** [x is None] *)
Definition is_None (x : value) : bool :=
  match x with
  | VNone => true
  | _ => false
  end.

(** Python truth value testing ([if x:], [x and y]).  An instance of a
    class that defines neither [__bool__] nor [__len__] is true. *)
Definition truthy (x : value) : bool :=
  match x with
  | VNone => false
  | VBool b => b
  | VInt n => negb (n =? 0)
  | VFloat f =>
      match f with
      | S754_zero _ => false
      | _ => true
      end
  | VList l =>
      match l with
      | [] => false
      | _ :: _ => true
      end
  | VObj _ => true
  | VSeq _ => true
  end.

(** [d.get(key, dflt)] *)
Definition dict_get (d : gmap string value) (key : string) (dflt : value) : value :=
  match d !! key with
  | Some v => v
  | None => dflt
  end.

(** [d.get(key)] *)
Definition dict_get_None (d : gmap string value) (key : string) : value :=
  dict_get d key VNone.

(** ** Exceptions, warnings and the constructor monad *)

Inductive exn : Type :=
| ValueError (msg : string)
| IndexError (msg : string)
| TypeError (msg : string)
| AttributeError (name : string).

(** [warnings.warn(msg, SyntaxWarning)] *)
Inductive warning : Type :=
| SyntaxWarning (msg : string).

Inductive outcome (A : Type) : Type :=
| Return (a : A)
| Raise (e : exn).
Arguments Return {A} a.
Arguments Raise {A} e.

(** The state threaded through [__init__]: the attributes of [self] and
    the warnings emitted so far, oldest first. *)
Record state : Type := State {
  self : gmap string value;
  warnings : list warning
}.

Definition M (A : Type) : Type := state -> outcome A * state.

Definition ret {A} (a : A) : M A := fun s => (Return a, s).

Definition bind {A B} (m : M A) (k : A -> M B) : M B :=
  fun s =>
    match m s with
    | (Return a, s') => k a s'
    | (Raise e, s') => (Raise e, s')
    end.

Definition raise {A} (e : exn) : M A := fun s => (Raise e, s).

Declare Scope py_scope.
Delimit Scope py_scope with py.
Notation "x <- m ;; k" := (bind m (fun x => k))
  (at level 100, m at next level, right associativity) : py_scope.
Notation "m ;;; k" := (bind m (fun _ => k))
  (at level 100, right associativity) : py_scope.
Local Open Scope py_scope.

(** [self.name] *)
Definition getattr (name : string) : M value :=
  fun s =>
    match self s !! name with
    | Some v => (Return v, s)
    | None => (Raise (AttributeError name), s)
    end.

(** [setattr(self, name, v)], [self.name = v] *)
Definition setattr (name : string) (v : value) : M unit :=
  fun s => (Return tt, State (<[name := v]> (self s)) (warnings s)).

(** [warnings.warn(msg, SyntaxWarning)] *)
Definition warn (w : warning) : M unit :=
  fun s => (Return tt, State (self s) (warnings s ++ [w])).

(** [for x in l: body(x)] *)
Fixpoint for_each {A} (l : list A) (body : A -> M unit) : M unit :=
  match l with
  | [] => ret tt
  | x :: l' => body x ;;; for_each l' body
  end.

(** ** The time series abstraction ([oemof.solph.plumbing.sequence]) *)

(** Modelled from the spec: [sequence] is imported from
    [oemof/solph/plumbing.py], which is not among the sources.  Spec
    4.1: a single value becomes an object that returns that value at
    every index (logically infinite, no bound check); an input that is
    already sequence-shaped is indexed directly. *)
Definition sequence (sequence_or_scalar : value) : value :=
  match sequence_or_scalar with
  | VList l => VList l
  | VSeq d => VSeq d
  | v => VSeq v
  end.

(** Modelled from the spec: integer-index read access [s[i]].  The
    constant time series answers at every index; a list follows
    Python's list indexing (a negative index counts from the end) and
    raises [IndexError] outside its range. *)
Definition getitem (s : value) (i : Z) : outcome value :=
  match s with
  | VSeq d => Return d
  | VList l =>
      let n := Z.of_nat (length l) in
      let j := if i <? 0 then i + n else i in
      if (0 <=? j) && (j <? n)
      then match l !! Z.to_nat j with
           | Some v => Return v
           | None => Raise (IndexError "list index out of range")
           end
      else Raise (IndexError "list index out of range")
  | _ => Raise (TypeError "object is not subscriptable")
  end.

(** A scalar in the sense of the spec: a single value rather than a
    time series. *)
Definition is_scalar (v : value) : bool :=
  match v with
  | VList _ | VSeq _ => false
  | _ => true
  end.

(** ** Flow *)

Module Flow.

Definition scalars : list string :=
  ["nominal_value"; "fixed_costs"; "summed_max"; "summed_min";
   "investment"; "binary"; "discrete"; "fixed"].

Definition sequences : list string :=
  ["actual_value"; "positive_gradient"; "negative_gradient";
   "variable_costs"; "min"; "max"].

Definition defaults : gmap string value :=
  {[ "fixed" := VBool false; "min" := VInt 0; "max" := VInt 1 ]}.

(** [set(scalars + sequences + list(kwargs))] *)
Definition attributes (kwargs : gmap string value) : gset string :=
  list_to_set (scalars ++ sequences ++ elements (dom kwargs)).

(** The body of the loop at lines 144-147. *)
Definition resolve_attribute (kwargs : gmap string value) (attribute : string) : M unit :=
  let value := dict_get kwargs attribute (dict_get_None defaults attribute) in
  setattr attribute
    (if decide (attribute ∈ sequences) then sequence value else value).

Definition msg_fixed : string :=
  "Can not fix flow value to None. Please set actual_value of the flow".
Definition msg_investment : string :=
  "Using the investment object the nominal_value is set to None.".
Definition msg_binary : string :=
  "Investment flows cannot be combined with binary flows!".

(** Lines 149-168: the checks and normalisations that follow the loop,
    with the control structure of the source ([if] / [elif], then two
    independent [if]s). *)
Definition validate : M unit :=
  c1 <- (fixed <- getattr "fixed" ;;
         if truthy fixed
         then actual_value <- getattr "actual_value" ;; ret (is_None actual_value)
         else ret false) ;;
  (if c1 then raise (ValueError msg_fixed)
   else
     fixed <- getattr "fixed" ;;
     if truthy fixed
     then setattr "min" (sequence (VInt 0)) ;;; setattr "max" (sequence (VInt 1))
     else ret tt) ;;;
  c2 <- (investment <- getattr "investment" ;;
         if truthy investment
         then nominal_value <- getattr "nominal_value" ;; ret (negb (is_None nominal_value))
         else ret false) ;;
  (if c2 then
     setattr "nominal_value" VNone ;;;
     warn (SyntaxWarning msg_investment)
   else ret tt) ;;;
  c3 <- (investment <- getattr "investment" ;;
         if truthy investment
         then binary <- getattr "binary" ;; ret (truthy binary)
         else ret false) ;;
  if c3 then raise (ValueError msg_binary) else ret tt.

(** Lines 144-147: the loop over [set(scalars + sequences +
    list(kwargs))].  Python leaves the iteration order of a set open;
    the loop is run here in the order of [elements], and
    [FlowFacts.loop_order_irrelevant] shows that every other order
    gives the same instance. *)
Definition resolve (kwargs : gmap string value) : M unit :=
  for_each (elements (attributes kwargs)) (resolve_attribute kwargs).

(** [Flow.__init__(self, **kwargs)] *)
Definition init (kwargs : gmap string value) : M unit :=
  resolve kwargs ;;; validate.

(** What the caller of [Flow] observes: the new instance or the
    exception, and in both cases the warnings that were emitted. *)
Inductive result : Type :=
| Constructed (attrs : gmap string value) (ws : list warning)
| Failed (e : exn) (ws : list warning).

Definition finish (r : outcome unit * state) : result :=
  match r with
  | (Return _, s) => Constructed (self s) (warnings s)
  | (Raise e, s) => Failed e (warnings s)
  end.

(** [Flow] called with keyword arguments [kwargs], on a fresh instance. *)
Definition new (kwargs : gmap string value) : result :=
  finish (init kwargs (State ∅ [])).

(** The steps of the validation pipeline, named as in section 4.2 of
    the specification. *)
Definition check_fixed_without_value : M unit :=
  fixed <- getattr "fixed" ;;
  if truthy fixed
  then actual_value <- getattr "actual_value" ;;
       if is_None actual_value then raise (ValueError msg_fixed) else ret tt
  else ret tt.

Definition force_bounds : M unit :=
  fixed <- getattr "fixed" ;;
  if truthy fixed
  then setattr "min" (VSeq (VInt 0)) ;;; setattr "max" (VSeq (VInt 1))
  else ret tt.

Definition clear_nominal_value : M unit :=
  investment <- getattr "investment" ;;
  if truthy investment
  then nominal_value <- getattr "nominal_value" ;;
       if is_None nominal_value then ret tt
       else setattr "nominal_value" VNone ;;; warn (SyntaxWarning msg_investment)
  else ret tt.

Definition check_mutual_exclusion : M unit :=
  investment <- getattr "investment" ;;
  if truthy investment
  then binary <- getattr "binary" ;;
       if truthy binary then raise (ValueError msg_binary) else ret tt
  else ret tt.

Definition pipeline : M unit :=
  check_fixed_without_value ;;; force_bounds ;;;
  clear_nominal_value ;;; check_mutual_exclusion.

(** *** Closed forms, used to state and prove properties *)

(** The value the loop stores under [attribute]. *)
Definition stored (kwargs : gmap string value) (attribute : string) : value :=
  let value := dict_get kwargs attribute (dict_get_None defaults attribute) in
  if decide (attribute ∈ sequences) then sequence value else value.

(** The attribute dictionary once the loop has run on a fresh instance. *)
Definition resolved (kwargs : gmap string value) : gmap string value :=
  foldl (λ m a, <[a := stored kwargs a]> m) ∅ (elements (attributes kwargs)).

Definition forced (attrs : gmap string value) : gmap string value :=
  <["max" := VSeq (VInt 1)]> (<["min" := VSeq (VInt 0)]> attrs).

(** The effect of lines 149-168 on an instance whose five inspected
    attributes are set. *)
Definition validated (s : state) (fixed actual_value investment nominal_value binary : value)
    : outcome unit * state :=
  if truthy fixed && is_None actual_value
  then (Raise (ValueError msg_fixed), s)
  else
    let attrs1 := if truthy fixed then forced (self s) else self s in
    let clear := truthy investment && negb (is_None nominal_value) in
    let attrs2 := if clear then <["nominal_value" := VNone]> attrs1 else attrs1 in
    let ws := if clear then warnings s ++ [SyntaxWarning msg_investment] else warnings s in
    (if truthy investment && truthy binary
     then Raise (ValueError msg_binary) else Return tt,
     State attrs2 ws).

(** What [Flow] returns, for every [kwargs]. *)
Definition closed (kwargs : gmap string value) : result :=
  let fixed := dict_get kwargs "fixed" (VBool false) in
  let investment := dict_get_None kwargs "investment" in
  let nominal_value := dict_get_None kwargs "nominal_value" in
  let binary := dict_get_None kwargs "binary" in
  let attrs1 := if truthy fixed then forced (resolved kwargs) else resolved kwargs in
  let clear := truthy investment && negb (is_None nominal_value) in
  let attrs2 := if clear then <["nominal_value" := VNone]> attrs1 else attrs1 in
  let ws := if clear then [SyntaxWarning msg_investment] else [] in
  if truthy investment && truthy binary
  then Failed (ValueError msg_binary) ws
  else Constructed attrs2 ws.

(** The sequence attributes for which [defaults] has no entry. *)
Definition sequences_without_default : list string :=
  ["actual_value"; "positive_gradient"; "negative_gradient"; "variable_costs"].

End Flow.

(** ** Transformers *)

(** A keyword argument of a node constructor: a plain value, or a
    dictionary whose keys are objects (buses), given by identity. *)
Inductive kwarg : Type :=
| KValue (v : value)
| KDict (d : gmap positive value).

(** An instance of [LinearTransformer] or [LinearN1Transformer]: what
    the base class [oemof.network.Transformer] set up, and the
    [conversion_factors] attribute. *)
Record transformer (node : Type) : Type := Transformer {
  base : node;
  conversion_factors : gmap positive value
}.
Arguments Transformer {node} base conversion_factors.
Arguments base {node} t.
Arguments conversion_factors {node} t.

(** [kwargs.get('conversion_factors', {}).items()]: a value that is not
    a dictionary has no [items]. *)
Definition conversion_factors_items (kwargs : gmap string kwarg)
    : outcome (gmap positive value) :=
  match kwargs !! "conversion_factors" with
  | None => Return ∅
  | Some (KDict d) => Return d
  | Some (KValue _) => Raise (AttributeError "items")
  end.

Section Transformers.

(** [oemof.network.Transformer.__init__], the constructor of the base
    class, which is outside this module. *)
Context {node : Type}.
Variable Transformer_init : list value → gmap string kwarg → outcome node.

(** [LinearTransformer.__init__(self, *args, **kwargs)] *)
Definition LinearTransformer_init (args : list value) (kwargs : gmap string kwarg)
    : outcome (transformer node) :=
  match Transformer_init args kwargs with
  | Raise e => Raise e
  | Return self =>
      match conversion_factors_items kwargs with
      | Raise e => Raise e
      | Return items => Return (Transformer self (sequence <$> items))
      end
  end.

(** [LinearN1Transformer.__init__(self, *args, **kwargs)] *)
Definition LinearN1Transformer_init (args : list value) (kwargs : gmap string kwarg)
    : outcome (transformer node) :=
  match Transformer_init args kwargs with
  | Raise e => Raise e
  | Return self =>
      match conversion_factors_items kwargs with
      | Raise e => Raise e
      | Return items => Return (Transformer self (sequence <$> items))
      end
  end.

End Transformers.

(** ** Bus *)

(** An instance of [Bus]: what the base class [oemof.network.Bus] set
    up, and the [balanced] attribute. *)
Record bus (node : Type) : Type := BusObject {
  bus_base : node;
  balanced : kwarg
}.
Arguments BusObject {node} bus_base balanced.
Arguments bus_base {node} b.
Arguments balanced {node} b.

Section Bus.

(** [oemof.network.Bus.__init__], the constructor of the base class,
    which is outside this module. *)
Context {node : Type}.
Variable NetworkBus_init : list value → gmap string kwarg → outcome node.

(** [Bus.__init__(self, *args, **kwargs)] *)
Definition Bus_init (args : list value) (kwargs : gmap string kwarg)
    : outcome (bus node) :=
  match NetworkBus_init args kwargs with
  | Raise e => Raise e
  | Return self =>
      Return (BusObject self
                match kwargs !! "balanced" with
                | Some v => v
                | None => KValue (VBool true)
                end)
  end.

End Bus.

(** ** EnergySystem *)

(** The keyword arguments of an energy system: the [groupings] list, if
    given, and everything else. *)
Record es_kwargs (grouping : Type) : Type := EsKwargs {
  groupings : option (list grouping);
  others : gmap string value
}.
Arguments EsKwargs {grouping} groupings others.
Arguments groupings {grouping} e.
Arguments others {grouping} e.

Section EnergySystem.

(** [solph.GROUPINGS], [solph.custom.custom_grouping] and the
    constructor of the base class [oemof.energy_system.EnergySystem]
    are outside this module. *)
Context {grouping system : Type}.
Variable GROUPINGS : list grouping.
Variable custom_grouping : grouping.
Variable core_init : es_kwargs grouping → outcome system.

(** The groupings that solph itself brings. *)
Definition builtin_groupings : list grouping := GROUPINGS ++ [custom_grouping].

(** [kwargs['groupings']] after lines 37-39. *)
Definition effective_groupings (kwargs : es_kwargs grouping) : list grouping :=
  GROUPINGS ++ [custom_grouping] ++
  match groupings kwargs with
  | Some user => user
  | None => []
  end.

(** [EnergySystem.__init__(self, **kwargs)] *)
Definition EnergySystem_init (kwargs : es_kwargs grouping) : outcome system :=
  core_init (EsKwargs (Some (effective_groupings kwargs)) (others kwargs)).

End EnergySystem.


(** ** Concrete inputs *)

Module Examples.

(** [Flow(actual_value=[10, 4, 4], fixed=True, variable_costs=5)], from
    the docstring of [Flow]. *)
Definition fixed_flow : gmap string value :=
  {[ "actual_value" := VList [VInt 10; VInt 4; VInt 4];
     "fixed" := VBool true;
     "variable_costs" := VInt 5 ]}.

(** [Flow(investment=inv, nominal_value=100)] *)
Definition investment_flow : gmap string value :=
  {[ "investment" := VObj 1; "nominal_value" := VInt 100 ]}.

(** [Flow(investment=inv, binary=bin)] *)
Definition investment_binary_flow : gmap string value :=
  {[ "investment" := VObj 1; "binary" := VObj 2 ]}.

(** [Flow(investment=inv, binary=bin, nominal_value=100)] *)
Definition investment_binary_nominal_flow : gmap string value :=
  {[ "investment" := VObj 1; "binary" := VObj 2; "nominal_value" := VInt 100 ]}.

(** [Flow(min=[2, 3], nominal_value=100, colour=7)]: a sequence key, a
    scalar key and a key that [Flow] does not know. *)
Definition custom_flow : gmap string value :=
  {[ "min" := VList [VInt 2; VInt 3]; "nominal_value" := VInt 100;
     "colour" := VInt 7 ]}.

(** The double nearest to 0.4. *)
Definition float_0_4 : value :=
  VFloat (S754_finite false 7205759403792794 (-54)).

(** [conversion_factors={bel: 0.4, bth: [1, 2, 3]}], from the docstring
    of [LinearTransformer], with [bel] and [bth] the objects 1 and 2. *)
Definition transformer_kwargs : gmap string kwarg :=
  {[ "conversion_factors" :=
       KDict {[ 1%positive := float_0_4;
                2%positive := VList [VInt 1; VInt 2; VInt 3] ]} ]}.

(** The attributes of the flow built from [kwargs] ([∅] if none is
    built). *)
Definition attributes_of (kwargs : gmap string value) : gmap string value :=
  match Flow.new kwargs with
  | Flow.Constructed attrs _ => attrs
  | Flow.Failed _ _ => ∅
  end.

(** [Bus(balanced=None)] *)
Definition bus_kwargs : gmap string kwarg :=
  {[ "balanced" := KValue VNone ]}.

(** A base class constructor that accepts everything. *)
Definition accept_all (args : list value) (kwargs : gmap string kwarg) : outcome unit :=
  Return tt.

End Examples.

(** ** Running the constructor monad *)

Lemma bind_ret {A B} (a : A) (k : A → M B) (s : state) : bind (ret a) k s = k a s.
Proof. done. Qed.

Lemma bind_raise {A B} (e : exn) (k : A → M B) (s : state) :
  bind (raise e) k s = (Raise e, s).
Proof. done. Qed.

Lemma bind_assoc {A B C} (m : M A) (k : A → M B) (k' : B → M C) (s : state) :
  bind (bind m k) k' s = bind m (λ a, bind (k a) k') s.
Proof. unfold bind. by destruct (m s) as [[a|e] s']. Qed.

Lemma bind_ext {A B} (m : M A) (k k' : A → M B) (s : state) :
  (∀ a s', k a s' = k' a s') → bind m k s = bind m k' s.
Proof. intros H. unfold bind. by destruct (m s) as [[a|e] s']. Qed.

Lemma bind_getattr {B} (name : string) (v : value) (k : value → M B) (s : state) :
  self s !! name = Some v → bind (getattr name) k s = k v s.
Proof. intros H. unfold bind, getattr. by rewrite H. Qed.

Lemma bind_getattr_missing {B} (name : string) (k : value → M B) (s : state) :
  self s !! name = None → bind (getattr name) k s = (Raise (AttributeError name), s).
Proof. intros H. unfold bind, getattr. by rewrite H. Qed.

Lemma bind_setattr {B} (name : string) (v : value) (k : unit → M B) (s : state) :
  bind (setattr name v) k s = k tt (State (<[name := v]> (self s)) (warnings s)).
Proof. done. Qed.

Lemma bind_warn {B} (w : warning) (k : unit → M B) (s : state) :
  bind (warn w) k s = k tt (State (self s) (warnings s ++ [w])).
Proof. done. Qed.

Lemma bind_if {A B} (b : bool) (m1 m2 : M A) (k : A → M B) (s : state) :
  bind (if b then m1 else m2) k s = if b then bind m1 k s else bind m2 k s.
Proof. by destruct b. Qed.

(** One step of symbolic execution of a monadic program on a state. *)
Ltac mstep :=
  first
    [ rewrite bind_assoc
    | rewrite bind_ret
    | rewrite bind_raise
    | rewrite bind_setattr
    | rewrite bind_warn
    | rewrite bind_if
    | erewrite bind_getattr
        by (cbn [self]; rewrite ?lookup_insert_ne by done; eassumption) ];
  cbn beta iota.

Ltac mrun := repeat mstep; cbn [self warnings].

(** ** Basic facts about the time series abstraction *)

Lemma is_None_sequence (v : value) : is_None (sequence v) = false.
Proof. by destruct v. Qed.

Lemma sequence_scalar (v : value) : is_scalar v = true → sequence v = VSeq v.
Proof. by destruct v. Qed.

Lemma sequence_idempotent (v : value) : sequence (sequence v) = sequence v.
Proof. by destruct v. Qed.

Lemma getitem_list_in_range (l : list value) (i : Z) :
  0 <= i < Z.of_nat (length l) →
  ∃ x, l !! Z.to_nat i = Some x ∧ getitem (VList l) i = Return x.
Proof.
  intros [Hlo Hhi].
  destruct (lookup_lt_is_Some_2 l (Z.to_nat i)) as [x Hx]; [lia|].
  exists x; split; [done|].
  unfold getitem.
  replace (i <? 0) with false by lia.
  replace (0 <=? i) with true by lia.
  replace (i <? Z.of_nat (length l)) with true by lia.
  simpl. by rewrite Hx.
Qed.

Lemma getitem_list_beyond (l : list value) (i : Z) :
  Z.of_nat (length l) <= i →
  getitem (VList l) i = Raise (IndexError "list index out of range").
Proof.
  intros Hi. unfold getitem.
  replace (i <? 0) with false by lia.
  replace (i <? Z.of_nat (length l)) with false by lia.
  by rewrite andb_false_r.
Qed.

(** ** The attribute loop of [Flow.__init__] *)

Module FlowFacts.
Import Flow.

Lemma for_each_resolve (kwargs : gmap string value) (order : list string) (s : state) :
  for_each order (resolve_attribute kwargs) s =
  (Return tt,
   State (foldl (λ m a, <[a := stored kwargs a]> m) (self s) order) (warnings s)).
Proof.
  revert s. induction order as [|a order IH]; intros [m ws]; [done|].
  cbn [for_each]. unfold bind at 1.
  unfold resolve_attribute, setattr. cbn [self warnings].
  by rewrite IH.
Qed.

Lemma lookup_foldl_insert (f : string → value) (order : list string)
    (m : gmap string value) (k : string) :
  foldl (λ m a, <[a := f a]> m) m order !! k =
  if decide (k ∈ order) then Some (f k) else m !! k.
Proof.
  revert m. induction order as [|a order IH]; intros m; [done|].
  cbn [foldl]. rewrite IH.
  destruct (decide (k ∈ order)) as [Hin|Hnin].
  - rewrite decide_True; [done|]. by apply elem_of_cons; right.
  - destruct (decide (k = a)) as [->|Hne].
    + rewrite decide_True; [|by apply elem_of_cons; left].
      by rewrite lookup_insert_eq.
    + rewrite decide_False; [by rewrite lookup_insert_ne|].
      intros [?|?]%elem_of_cons; by subst.
Qed.

Lemma elem_of_attributes (kwargs : gmap string value) (k : string) :
  k ∈ attributes kwargs ↔ k ∈ scalars ∨ k ∈ sequences ∨ is_Some (kwargs !! k).
Proof.
  unfold attributes. rewrite elem_of_list_to_set, !elem_of_app, elem_of_elements.
  by rewrite elem_of_dom.
Qed.

Lemma lookup_resolved (kwargs : gmap string value) (k : string) :
  resolved kwargs !! k =
  if decide (k ∈ attributes kwargs) then Some (stored kwargs k) else None.
Proof.
  unfold resolved. rewrite lookup_foldl_insert, lookup_empty.
  destruct (decide (k ∈ attributes kwargs)) as [Hin|Hnin].
  - rewrite decide_True; [done|]. by apply elem_of_elements.
  - rewrite decide_False; [done|]. by rewrite elem_of_elements.
Qed.

Lemma resolve_run (kwargs : gmap string value) (s : state) :
  resolve kwargs s =
  (Return tt,
   State (foldl (λ m a, <[a := stored kwargs a]> m) (self s)
            (elements (attributes kwargs)))
         (warnings s)).
Proof. apply for_each_resolve. Qed.

Lemma resolve_fresh (kwargs : gmap string value) :
  resolve kwargs (State ∅ []) = (Return tt, State (resolved kwargs) []).
Proof. apply resolve_run. Qed.

(** The order in which the loop visits the set does not matter. *)
Lemma loop_order_irrelevant (kwargs : gmap string value) (order : list string)
    (s : state) :
  (∀ k, k ∈ order ↔ k ∈ attributes kwargs) →
  for_each order (resolve_attribute kwargs) s = resolve kwargs s.
Proof.
  intros Hsame. rewrite resolve_run, for_each_resolve.
  do 2 f_equal. apply map_eq; intros k.
  rewrite !lookup_foldl_insert.
  destruct (decide (k ∈ order)) as [Hin|Hnin].
  - rewrite decide_True; [done|]. by apply elem_of_elements, Hsame.
  - rewrite decide_False; [done|]. by rewrite elem_of_elements, <- Hsame.
Qed.

Lemma lookup_resolved_recognized (kwargs : gmap string value) (k : string) :
  k ∈ scalars ++ sequences → resolved kwargs !! k = Some (stored kwargs k).
Proof.
  intros Hk. rewrite lookup_resolved, decide_True; [done|].
  apply elem_of_attributes. apply elem_of_app in Hk. tauto.
Qed.

Lemma lookup_resolved_supplied (kwargs : gmap string value) (k : string) (v : value) :
  kwargs !! k = Some v →
  resolved kwargs !! k = Some (if decide (k ∈ sequences) then sequence v else v).
Proof.
  intros Hk. rewrite lookup_resolved, decide_True.
  - unfold stored, dict_get. by rewrite Hk.
  - apply elem_of_attributes. right; right. by exists v.
Qed.

(** *** The checks after the loop, in closed form *)

Lemma validate_closed (s : state) (fx av iv nv bn : value) :
  self s !! "fixed" = Some fx →
  self s !! "actual_value" = Some av →
  self s !! "investment" = Some iv →
  self s !! "nominal_value" = Some nv →
  self s !! "binary" = Some bn →
  validate s = validated s fx av iv nv bn.
Proof.
  intros Hfx Hav Hiv Hnv Hbn. destruct s as [m ws]. cbn [self] in *.
  unfold validate, validated, forced, sequence. cbn [self warnings].
  mrun.
  destruct (truthy fx); cbn [andb]; mrun.
  - destruct (is_None av); mrun; [done|].
    destruct (truthy iv); cbn [andb]; mrun.
    + destruct (is_None nv); cbn [negb]; mrun; by destruct (truthy bn); mrun.
    + done.
  - destruct (truthy iv); cbn [andb]; mrun.
    + destruct (is_None nv); cbn [negb]; mrun; by destruct (truthy bn); mrun.
    + done.
Qed.

(** Symbolic execution of both sides of an equation between runs, when
    every inspected attribute is known to be set or known to be
    missing. *)
Ltac mget :=
  match goal with
  | H : ?m !! ?n = Some ?v |- context [bind (getattr ?n) _ _] =>
      erewrite (bind_getattr n v)
        by (cbn [self]; rewrite ?lookup_insert_ne by done; exact H)
  | H : ?m !! ?n = None |- context [bind (getattr ?n) _ _] =>
      erewrite (bind_getattr_missing n)
        by (cbn [self]; rewrite ?lookup_insert_ne by done; exact H)
  end.

Ltac mbool :=
  match goal with
  | H : truthy ?v = _ |- context [truthy ?v] => rewrite H
  | H : is_None ?v = _ |- context [is_None ?v] => rewrite H
  | |- context [truthy ?v] => destruct (truthy v) eqn:?
  | |- context [is_None ?v] => destruct (is_None v) eqn:?
  end.

Ltac mrun_both :=
  repeat (first
            [ mget
            | rewrite bind_assoc
            | rewrite bind_ret
            | rewrite bind_raise
            | rewrite bind_setattr
            | rewrite bind_warn
            | rewrite bind_if
            | mbool ];
          cbn beta iota; cbn [negb]).

(** The pipeline of named steps computes the same thing as the source's
    [if] / [elif] block, on every state. *)
Lemma validate_pipeline (s : state) : validate s = pipeline s.
Proof.
  destruct s as [m ws].
  unfold validate, pipeline, check_fixed_without_value, force_bounds,
    clear_nominal_value, check_mutual_exclusion, sequence.
  destruct (m !! "fixed") eqn:Hfx;
  destruct (m !! "actual_value") eqn:Hav;
  destruct (m !! "investment") eqn:Hiv;
  destruct (m !! "nominal_value") eqn:Hnv;
  destruct (m !! "binary") eqn:Hbn;
  mrun_both; done.
Qed.

(** *** The constructor in closed form *)

(** Membership of a literal name in a literal list, by evaluation. *)
Ltac name_in_list := apply (bool_decide_unpack _); by vm_compute.

Lemma not_sequence_scalar (k : string) : k ∈ scalars → k ∉ sequences.
Proof.
  revert k. apply Forall_forall. apply (bool_decide_unpack _). by vm_compute.
Qed.

Lemma stored_sequence (kwargs : gmap string value) (k : string) :
  k ∈ sequences →
  stored kwargs k = sequence (dict_get kwargs k (dict_get_None defaults k)).
Proof. intros Hk. unfold stored. by rewrite decide_True. Qed.

Lemma stored_verbatim (kwargs : gmap string value) (k : string) :
  k ∉ sequences →
  stored kwargs k = dict_get kwargs k (dict_get_None defaults k).
Proof. intros Hk. unfold stored. by rewrite decide_False. Qed.

Lemma stored_fixed (kwargs : gmap string value) :
  stored kwargs "fixed" = dict_get kwargs "fixed" (VBool false).
Proof. rewrite stored_verbatim; [done|]. name_in_list. Qed.

Lemma stored_investment (kwargs : gmap string value) :
  stored kwargs "investment" = dict_get_None kwargs "investment".
Proof. rewrite stored_verbatim; [done|]. name_in_list. Qed.

Lemma stored_nominal_value (kwargs : gmap string value) :
  stored kwargs "nominal_value" = dict_get_None kwargs "nominal_value".
Proof. rewrite stored_verbatim; [done|]. name_in_list. Qed.

Lemma stored_binary (kwargs : gmap string value) :
  stored kwargs "binary" = dict_get_None kwargs "binary".
Proof. rewrite stored_verbatim; [done|]. name_in_list. Qed.

Lemma stored_actual_value (kwargs : gmap string value) :
  stored kwargs "actual_value" = sequence (dict_get_None kwargs "actual_value").
Proof. rewrite stored_sequence; [done|]. name_in_list. Qed.

Lemma new_closed (kwargs : gmap string value) : new kwargs = closed kwargs.
Proof.
  unfold new, init. unfold bind at 1. rewrite resolve_fresh.
  rewrite (validate_closed _
             (stored kwargs "fixed") (stored kwargs "actual_value")
             (stored kwargs "investment") (stored kwargs "nominal_value")
             (stored kwargs "binary"));
    try (cbn [self]; apply lookup_resolved_recognized; name_in_list).
  unfold validated, closed. cbn [self warnings app].
  rewrite stored_actual_value, is_None_sequence, andb_false_r.
  rewrite stored_fixed, stored_investment, stored_nominal_value, stored_binary.
  by destruct (truthy (dict_get_None kwargs "investment")
               && truthy (dict_get_None kwargs "binary")).
Qed.

End FlowFacts.

(** ** Properties of [Flow] *)

Section FlowProperties.
Import Flow FlowFacts.

Implicit Types (kwargs attrs : gmap string value) (k : string) (v : value).

(** The check of lines 149-151 never fires: whatever the keyword
    arguments, construction does not fail with the "Can not fix flow
    value to None" error. *)
Lemma fixed_check_never_fires kwargs ws :
  new kwargs ≠ Failed (ValueError msg_fixed) ws.
Proof.
  rewrite new_closed. unfold closed.
  destruct (truthy (dict_get_None kwargs "investment")
            && truthy (dict_get_None kwargs "binary")); [|done].
  by intros [=].
Qed.

(** Construction fails only when investment and binary are both set,
    and then with the mutual-exclusion error. *)
Lemma new_fails_iff kwargs :
  (∃ e ws, new kwargs = Failed e ws) ↔
  truthy (dict_get_None kwargs "investment")
  && truthy (dict_get_None kwargs "binary") = true.
Proof.
  rewrite new_closed. unfold closed.
  destruct (truthy (dict_get_None kwargs "investment")
            && truthy (dict_get_None kwargs "binary")).
  - split; [done|]. intros _. eauto.
  - split; [|done]. by intros (e & ws & ?).
Qed.

Lemma lookup_forced_min attrs : forced attrs !! "min" = Some (VSeq (VInt 0)).
Proof. unfold forced. rewrite lookup_insert_ne by done. apply lookup_insert_eq. Qed.

Lemma lookup_forced_max attrs : forced attrs !! "max" = Some (VSeq (VInt 1)).
Proof. unfold forced. apply lookup_insert_eq. Qed.

Lemma lookup_forced_ne attrs k :
  k ≠ "min" → k ≠ "max" → forced attrs !! k = attrs !! k.
Proof. intros ??. unfold forced. by rewrite !lookup_insert_ne. Qed.

Lemma dict_get_supplied kwargs k v dflt :
  kwargs !! k = Some v → dict_get kwargs k dflt = v.
Proof. intros H. unfold dict_get. by rewrite H. Qed.

Lemma dict_get_absent kwargs k dflt :
  kwargs !! k = None → dict_get kwargs k dflt = dflt.
Proof. intros H. unfold dict_get. by rewrite H. Qed.

(** The attributes of a constructed flow, in terms of what the loop
    stored. *)
Lemma constructed_lookup kwargs attrs ws k :
  new kwargs = Constructed attrs ws →
  attrs !! k =
    if decide (k = "nominal_value"
               ∧ truthy (dict_get_None kwargs "investment")
                 && negb (is_None (dict_get_None kwargs "nominal_value")) = true)
    then Some VNone
    else if decide ((k = "min" ∨ k = "max")
                    ∧ truthy (dict_get kwargs "fixed" (VBool false)) = true)
    then Some (VSeq (if decide (k = "min") then VInt 0 else VInt 1))
    else resolved kwargs !! k.
Proof.
  rewrite new_closed. unfold closed.
  destruct (truthy (dict_get_None kwargs "investment")
            && truthy (dict_get_None kwargs "binary")); [done|].
  intros [= <- _].
  destruct (truthy (dict_get_None kwargs "investment")
            && negb (is_None (dict_get_None kwargs "nominal_value"))) eqn:Hclear.
  - destruct (decide (k = "nominal_value")) as [->|Hk].
    + rewrite decide_True by done. apply lookup_insert_eq.
    + rewrite decide_False by tauto. rewrite lookup_insert_ne by done.
      destruct (truthy (dict_get kwargs "fixed" (VBool false))).
      * destruct (decide (k = "min")) as [->|Hmin].
        { rewrite decide_True by tauto. apply lookup_forced_min. }
        destruct (decide (k = "max")) as [->|Hmax].
        { rewrite decide_True by tauto. apply lookup_forced_max. }
        rewrite decide_False by tauto. by apply lookup_forced_ne.
      * rewrite decide_False; [done|]. by intros [_ ?].
  - rewrite decide_False by (by intros [_ ?]).
    destruct (truthy (dict_get kwargs "fixed" (VBool false))).
    + destruct (decide (k = "min")) as [->|Hmin].
      { rewrite decide_True by tauto. apply lookup_forced_min. }
      destruct (decide (k = "max")) as [->|Hmax].
      { rewrite decide_True by tauto. apply lookup_forced_max. }
      rewrite decide_False by tauto. by apply lookup_forced_ne.
    + rewrite decide_False; [done|]. by intros [_ ?].
Qed.

(** *** Construction of flows *)

(** C1 (not met by the code): [Flow(fixed=True)], with no
    [actual_value], does not fail.  The loop stores
    [sequence(None)] under [actual_value], the test
    [self.actual_value is None] is false for that object, and the
    [elif] branch runs instead: the flow is constructed, without any
    warning, with [min] and [max] forced to the constants 0 and 1. *)
Theorem fixed_without_actual_value_is_constructed :
  ∃ attrs,
    new {[ "fixed" := VBool true ]} = Constructed attrs []
    ∧ attrs !! "fixed" = Some (VBool true)
    ∧ attrs !! "actual_value" = Some (VSeq VNone)
    ∧ attrs !! "min" = Some (VSeq (VInt 0))
    ∧ attrs !! "max" = Some (VSeq (VInt 1)).
Proof.
  eexists. split; [by vm_compute|].
  repeat split; by vm_compute.
Qed.

(** C2: when [fixed] is true and an [actual_value] is given, every flow
    that results has [min] and [max] equal to time series that return 0
    and 1 at every index, whatever [min] and [max] the caller passed;
    and a flow does result unless investment and binary are both
    set. *)
Theorem fixed_forces_bounds kwargs (fixed actual_value : value) :
  kwargs !! "fixed" = Some fixed → truthy fixed = true →
  kwargs !! "actual_value" = Some actual_value → is_None actual_value = false →
  (∀ attrs ws, new kwargs = Constructed attrs ws →
     ∃ mn mx, attrs !! "min" = Some mn ∧ attrs !! "max" = Some mx
       ∧ ∀ i, getitem mn i = Return (VInt 0) ∧ getitem mx i = Return (VInt 1))
  ∧ (truthy (dict_get_None kwargs "investment")
     && truthy (dict_get_None kwargs "binary") = false →
     ∃ attrs ws, new kwargs = Constructed attrs ws).
Proof.
  intros Hfx Tfx _ _. split.
  - intros attrs ws Hnew.
    exists (VSeq (VInt 0)), (VSeq (VInt 1)).
    rewrite !(constructed_lookup _ _ _ _ Hnew).
    rewrite (dict_get_supplied _ _ _ _ Hfx), Tfx.
    split_and!; [| |done];
      repeat case_decide; first [done | tauto | by destruct_and?].
  - intros Hexcl. rewrite new_closed. unfold closed. rewrite Hexcl. eauto.
Qed.

(** C3: with an investment descriptor, a [nominal_value] other than
    [None] and no binary descriptor, the flow is constructed, its
    [nominal_value] is [None], and exactly one warning (the
    [SyntaxWarning] about the investment object) reaches the caller.
    A descriptor is an instance of [oemof.solph.options.Investment],
    which is true in a condition. *)
Theorem investment_clears_nominal_value kwargs (o : positive) (nominal_value : value) :
  kwargs !! "investment" = Some (VObj o) →
  kwargs !! "nominal_value" = Some nominal_value → is_None nominal_value = false →
  truthy (dict_get_None kwargs "binary") = false →
  ∃ attrs,
    new kwargs = Constructed attrs [SyntaxWarning msg_investment]
    ∧ attrs !! "nominal_value" = Some VNone.
Proof.
  intros Hiv Hnv Tnv Tbn.
  destruct (new kwargs) as [attrs ws|e ws] eqn:Hnew.
  - pose proof (constructed_lookup _ _ _ "nominal_value" Hnew) as Hlook.
    revert Hnew. rewrite new_closed. unfold closed.
    unfold dict_get_None in *.
    rewrite (dict_get_supplied _ _ _ _ Hiv), (dict_get_supplied _ _ _ _ Hnv) in *.
    rewrite Tbn, Tnv. cbn [truthy andb negb].
    intros [= _ <-]. exists attrs. split; [done|].
    rewrite Hlook, Tnv. by rewrite decide_True.
  - exfalso. revert Hnew. rewrite new_closed. unfold closed.
    by rewrite Tbn, andb_false_r.
Qed.

(** C4: with an investment descriptor and a binary descriptor,
    construction fails with the [ValueError] "Investment flows cannot
    be combined with binary flows!" (the specification's
    ConfigurationError). *)
Theorem investment_and_binary_fail kwargs (o1 o2 : positive) :
  kwargs !! "investment" = Some (VObj o1) →
  kwargs !! "binary" = Some (VObj o2) →
  ∃ ws, new kwargs = Failed (ValueError msg_binary) ws.
Proof.
  intros Hiv Hbn. rewrite new_closed. unfold closed, dict_get_None.
  rewrite (dict_get_supplied _ _ _ _ Hiv), (dict_get_supplied _ _ _ _ Hbn).
  cbn [truthy andb]. eauto.
Qed.

(** C5: [Flow.__init__] is the attribute loop followed by the four
    steps in the order fixed-without-value check, forcing of [min] and
    [max], clearing of [nominal_value] with its warning, mutual
    exclusion check; and when investment, binary and a [nominal_value]
    other than [None] are given together, the caller sees the warning,
    emitted before the failure, and then the mutual-exclusion error. *)
Theorem validation_order :
  (∀ kwargs s,
     init kwargs s =
     (resolve kwargs ;;; check_fixed_without_value ;;; force_bounds ;;;
      clear_nominal_value ;;; check_mutual_exclusion) s)
  ∧ (∀ kwargs (o1 o2 : positive) (nominal_value : value),
       kwargs !! "investment" = Some (VObj o1) →
       kwargs !! "binary" = Some (VObj o2) →
       kwargs !! "nominal_value" = Some nominal_value →
       is_None nominal_value = false →
       new kwargs = Failed (ValueError msg_binary) [SyntaxWarning msg_investment]).
Proof.
  split.
  - intros kwargs s.
    apply (bind_ext _ (λ _, validate) (λ _, pipeline)).
    intros _ s'. apply validate_pipeline.
  - intros kwargs o1 o2 nv Hiv Hbn Hnv Tnv.
    rewrite new_closed. unfold closed, dict_get_None.
    rewrite (dict_get_supplied _ _ _ _ Hiv), (dict_get_supplied _ _ _ _ Hbn),
      (dict_get_supplied _ _ _ _ Hnv), Tnv.
    done.
Qed.

(** C8: every keyword argument is stored by the loop under its own
    key: verbatim when the key is not a recognised one, wrapped by
    [sequence] when it is one of the six sequence keys, verbatim when
    it is one of the scalar keys.  The constructed flow keeps that
    attribute, except where a later step of the constructor overwrites
    it ([min] and [max] of a fixed flow, [nominal_value] of an
    investment flow). *)
Theorem kwargs_are_stored kwargs k v :
  kwargs !! k = Some v →
  ∃ s', resolve kwargs (State ∅ []) = (Return tt, s')
    ∧ (k ∉ scalars ++ sequences → self s' !! k = Some v)
    ∧ (k ∈ sequences → self s' !! k = Some (sequence v))
    ∧ (k ∈ scalars → self s' !! k = Some v)
    ∧ (∀ attrs ws,
         new kwargs = Constructed attrs ws →
         (k = "min" ∨ k = "max" →
          truthy (dict_get kwargs "fixed" (VBool false)) = false) →
         (k = "nominal_value" →
          truthy (dict_get_None kwargs "investment") = false) →
         attrs !! k = self s' !! k).
Proof.
  intros Hk. eexists. split; [apply resolve_fresh|]. cbn [self].
  pose proof (lookup_resolved_supplied _ _ _ Hk) as Hres.
  split_and!.
  - intros Hnot. rewrite Hres, decide_False; [done|].
    intros ?. apply Hnot, elem_of_app. by right.
  - intros Hin. by rewrite Hres, decide_True.
  - intros Hin. rewrite Hres, decide_False; [done|].
    by apply not_sequence_scalar.
  - intros attrs ws Hnew Hbounds Hnominal.
    rewrite (constructed_lookup _ _ _ _ Hnew).
    rewrite decide_False.
    + rewrite decide_False; [done|].
      intros [Hmm Tfx]. specialize (Hbounds Hmm). congruence.
    + intros [-> Hclear]. rewrite Hnominal in Hclear; done.
Qed.

(** C10: a sequence attribute without default that the caller does not
    supply is stored as [sequence(None)], an object that returns [None]
    at every index and is not [None] itself; the constructed flow keeps
    it; and the fixed-without-value check, which tests that stored
    object with [is None], passes whatever [fixed] is. *)
Theorem absent_sequence_is_wrapped_None kwargs k :
  k ∈ sequences_without_default → kwargs !! k = None →
  ∃ s', resolve kwargs (State ∅ []) = (Return tt, s')
    ∧ self s' !! k = Some (sequence VNone)
    ∧ is_None (sequence VNone) = false
    ∧ (∀ i, getitem (sequence VNone) i = Return VNone)
    ∧ (∀ attrs ws, new kwargs = Constructed attrs ws →
         attrs !! k = Some (sequence VNone))
    ∧ (k = "actual_value" → check_fixed_without_value s' = (Return tt, s')).
Proof.
  intros Hk Habsent. eexists. split; [apply resolve_fresh|]. cbn [self].
  assert (k ∈ sequences) as Hseq.
  { clear Habsent. revert k Hk. apply Forall_forall.
    apply (bool_decide_unpack _). by vm_compute. }
  assert (defaults !! k = None) as Hdef.
  { clear Habsent Hseq. revert k Hk. apply Forall_forall.
    apply (bool_decide_unpack _). by vm_compute. }
  assert (resolved kwargs !! k = Some (sequence VNone)) as Hres.
  { rewrite lookup_resolved_recognized by (apply elem_of_app; by right).
    rewrite stored_sequence by done.
    rewrite (dict_get_absent _ _ _ Habsent). unfold dict_get_None.
    by rewrite (dict_get_absent _ _ _ Hdef). }
  split_and!; [done..| |].
  - intros attrs ws Hnew.
    rewrite (constructed_lookup _ _ _ _ Hnew).
    rewrite decide_False.
    + rewrite decide_False; [done|].
      intros [[-> | ->] _]; by vm_compute in Hdef.
    + intros [-> _]. by apply (not_sequence_scalar "nominal_value") in Hseq;
        [|name_in_list].
  - intros ->. unfold check_fixed_without_value.
    assert (resolved kwargs !! "fixed" = Some (stored kwargs "fixed")) as Hfx
      by (apply lookup_resolved_recognized; name_in_list).
    mrun. by destruct (truthy (stored kwargs "fixed")); mrun.
Qed.

End FlowProperties.

(** ** Properties of the time series abstraction *)

Lemma getitem_list_lookup (l : list value) (i : Z) (x : value) :
  0 <= i → l !! Z.to_nat i = Some x → getitem (VList l) i = Return x.
Proof.
  intros Hi Hx.
  destruct (getitem_list_in_range l i) as (y & Hy & Hget).
  - split; [done|]. apply lookup_lt_Some in Hx. lia.
  - congruence.
Qed.

(** C6: [sequence] of a scalar returns that scalar at every
    non-negative index; [sequence] of a list returns the element at
    each index below the length, and fails with [IndexError] (the
    specification's IndexOutOfRange) at every index from the length
    on. *)
Theorem sequence_indexing :
  (∀ (v : value) (i : Z),
     is_scalar v = true → 0 <= i → getitem (sequence v) i = Return v)
  ∧ (∀ (L : list value) (i : Z),
       0 <= i < Z.of_nat (length L) →
       ∃ x, L !! Z.to_nat i = Some x ∧ getitem (sequence (VList L)) i = Return x)
  ∧ (∀ (L : list value) (i : Z),
       Z.of_nat (length L) <= i →
       ∃ msg, getitem (sequence (VList L)) i = Raise (IndexError msg)).
Proof.
  split_and!.
  - intros v i Hv _. by rewrite sequence_scalar.
  - intros L i Hi. by apply getitem_list_in_range.
  - intros L i Hi. eexists. by apply getitem_list_beyond.
Qed.

(** ** Properties of the transformers *)

Section TransformerProperties.

Context {node : Type}.
Variable Transformer_init : list value → gmap string kwarg → outcome node.

Lemma LinearTransformer_init_Return args kwargs (t : transformer node) :
  LinearTransformer_init Transformer_init args kwargs = Return t →
  ∃ items, conversion_factors_items kwargs = Return items
    ∧ conversion_factors t = sequence <$> items.
Proof.
  unfold LinearTransformer_init.
  destruct (Transformer_init args kwargs) as [self0|e]; [|done].
  destruct (conversion_factors_items kwargs) as [items|e]; [|done].
  intros [= <-]. by exists items.
Qed.

Lemma LinearN1Transformer_init_Return args kwargs (t : transformer node) :
  LinearN1Transformer_init Transformer_init args kwargs = Return t →
  ∃ items, conversion_factors_items kwargs = Return items
    ∧ conversion_factors t = sequence <$> items.
Proof.
  unfold LinearN1Transformer_init.
  destruct (Transformer_init args kwargs) as [self0|e]; [|done].
  destruct (conversion_factors_items kwargs) as [items|e]; [|done].
  intros [= <-]. by exists items.
Qed.

Lemma conversion_factors_items_dict kwargs (d : gmap positive value) :
  kwargs !! "conversion_factors" = Some (KDict d) →
  conversion_factors_items kwargs = Return d.
Proof. intros H. unfold conversion_factors_items. by rewrite H. Qed.

(** C7: a [LinearTransformer] or [LinearN1Transformer] built from a
    [conversion_factors] dictionary has, under every key of that
    dictionary and under no other, [sequence] of the supplied value: a
    scalar gives a time series that returns it at every index, a list
    one that returns the list's element at each index.  The instance is
    built whenever the base class constructor returns. *)
Theorem conversion_factors_are_wrapped args kwargs (d : gmap positive value)
    (t : transformer node) :
  kwargs !! "conversion_factors" = Some (KDict d) →
  LinearTransformer_init Transformer_init args kwargs = Return t
  ∨ LinearN1Transformer_init Transformer_init args kwargs = Return t →
  (∀ bus, is_Some (conversion_factors t !! bus) ↔ is_Some (d !! bus))
  ∧ (∀ bus v, d !! bus = Some v →
       ∃ ts, conversion_factors t !! bus = Some ts
         ∧ ts = sequence v
         ∧ (is_scalar v = true → ∀ i, getitem ts i = Return v)
         ∧ (∀ L i x, v = VList L → 0 <= i → L !! Z.to_nat i = Some x →
              getitem ts i = Return x))
  ∧ (∀ self0, Transformer_init args kwargs = Return self0 →
       LinearTransformer_init Transformer_init args kwargs
         = Return (Transformer self0 (sequence <$> d))
       ∧ LinearN1Transformer_init Transformer_init args kwargs
         = Return (Transformer self0 (sequence <$> d))).
Proof.
  intros Hkw Hinit.
  pose proof (conversion_factors_items_dict _ _ Hkw) as Hitems.
  assert (conversion_factors t = sequence <$> d) as Hcf.
  { destruct Hinit as [Hinit|Hinit];
      [apply LinearTransformer_init_Return in Hinit
      |apply LinearN1Transformer_init_Return in Hinit];
      destruct Hinit as (items & Hi & ->); congruence. }
  split_and!.
  - intros bus. rewrite Hcf, lookup_fmap. apply fmap_is_Some.
  - intros bus v Hv. exists (sequence v).
    rewrite Hcf, lookup_fmap, Hv. split_and!; [done..| |].
    + intros Hs i. by rewrite sequence_scalar.
    + intros L i x -> Hi Hx. by apply getitem_list_lookup.
  - intros self0 Hbase.
    unfold LinearTransformer_init, LinearN1Transformer_init.
    by rewrite Hbase, Hitems.
Qed.

End TransformerProperties.

(** ** Properties of the energy system *)

Section EnergySystemProperties.

Context {grouping system : Type}.
Variable GROUPINGS : list grouping.
Variable custom_grouping : grouping.
Variable core_init : es_kwargs grouping → outcome system.

(** C9: the list of groupings handed to the base class is solph's own
    groupings ([GROUPINGS] and [custom_grouping]) followed by the
    caller's list, so each of solph's groupings comes before each of
    the caller's; without a caller's list it is solph's own groupings
    alone. *)
Theorem builtin_groupings_come_first :
  (∀ kwargs,
     EnergySystem_init GROUPINGS custom_grouping core_init kwargs =
     core_init (EsKwargs (Some (effective_groupings GROUPINGS custom_grouping kwargs))
                         (others kwargs)))
  ∧ (∀ G rest,
       effective_groupings GROUPINGS custom_grouping (EsKwargs (Some G) rest) =
       builtin_groupings GROUPINGS custom_grouping ++ G)
  ∧ (∀ rest,
       effective_groupings GROUPINGS custom_grouping (EsKwargs None rest) =
       builtin_groupings GROUPINGS custom_grouping)
  ∧ (∀ G rest (i j : nat) b u,
       builtin_groupings GROUPINGS custom_grouping !! i = Some b →
       G !! j = Some u →
       let eff := effective_groupings GROUPINGS custom_grouping (EsKwargs (Some G) rest) in
       let j' := (length (builtin_groupings GROUPINGS custom_grouping) + j)%nat in
       eff !! i = Some b ∧ eff !! j' = Some u ∧ (i < j')%nat).
Proof.
  assert (∀ G rest,
            effective_groupings GROUPINGS custom_grouping (EsKwargs (Some G) rest) =
            builtin_groupings GROUPINGS custom_grouping ++ G) as Happ.
  { intros G rest. unfold effective_groupings, builtin_groupings.
    cbn [groupings]. by rewrite <- app_assoc. }
  split_and!.
  - done.
  - done.
  - intros rest. unfold effective_groupings, builtin_groupings.
    cbn [groupings]. by rewrite app_nil_r.
  - intros G rest i j b u Hb Hu. cbn zeta. rewrite Happ. split_and!.
    + by apply lookup_app_l_Some.
    + rewrite lookup_app_r by lia. by replace (_ + j - _)%nat with j by lia.
    + apply lookup_lt_Some in Hb. lia.
Qed.

End EnergySystemProperties.

(** ** The theorems at concrete inputs *)

Lemma fixed_forces_bounds_witness :
  (Examples.fixed_flow !! "fixed" = Some (VBool true)
   ∧ truthy (VBool true) = true
   ∧ Examples.fixed_flow !! "actual_value" = Some (VList [VInt 10; VInt 4; VInt 4])
   ∧ is_None (VList [VInt 10; VInt 4; VInt 4]) = false)
  ∧ ((∀ attrs ws, Flow.new Examples.fixed_flow = Flow.Constructed attrs ws →
        ∃ mn mx, attrs !! "min" = Some mn ∧ attrs !! "max" = Some mx
          ∧ ∀ i, getitem mn i = Return (VInt 0) ∧ getitem mx i = Return (VInt 1))
     ∧ (truthy (dict_get_None Examples.fixed_flow "investment")
        && truthy (dict_get_None Examples.fixed_flow "binary") = false →
        ∃ attrs ws, Flow.new Examples.fixed_flow = Flow.Constructed attrs ws)).
Proof.
  split.
  - repeat split; reflexivity.
  - apply (fixed_forces_bounds Examples.fixed_flow (VBool true)
             (VList [VInt 10; VInt 4; VInt 4])); reflexivity.
Defined.

Lemma investment_clears_nominal_value_witness :
  (Examples.investment_flow !! "investment" = Some (VObj 1)
   ∧ Examples.investment_flow !! "nominal_value" = Some (VInt 100)
   ∧ is_None (VInt 100) = false
   ∧ truthy (dict_get_None Examples.investment_flow "binary") = false)
  ∧ ∃ attrs,
      Flow.new Examples.investment_flow
        = Flow.Constructed attrs [SyntaxWarning Flow.msg_investment]
      ∧ attrs !! "nominal_value" = Some VNone.
Proof.
  split.
  - repeat split; reflexivity.
  - apply (investment_clears_nominal_value Examples.investment_flow 1 (VInt 100));
      reflexivity.
Defined.

Lemma investment_and_binary_fail_witness :
  (Examples.investment_binary_flow !! "investment" = Some (VObj 1)
   ∧ Examples.investment_binary_flow !! "binary" = Some (VObj 2))
  ∧ ∃ ws, Flow.new Examples.investment_binary_flow
            = Flow.Failed (ValueError Flow.msg_binary) ws.
Proof.
  split.
  - split; reflexivity.
  - apply (investment_and_binary_fail Examples.investment_binary_flow 1 2);
      reflexivity.
Defined.

Lemma validation_order_witness :
  (Examples.investment_binary_nominal_flow !! "investment" = Some (VObj 1)
   ∧ Examples.investment_binary_nominal_flow !! "binary" = Some (VObj 2)
   ∧ Examples.investment_binary_nominal_flow !! "nominal_value" = Some (VInt 100)
   ∧ is_None (VInt 100) = false)
  ∧ Flow.new Examples.investment_binary_nominal_flow
    = Flow.Failed (ValueError Flow.msg_binary) [SyntaxWarning Flow.msg_investment].
Proof.
  split.
  - repeat split; reflexivity.
  - apply (proj2 validation_order Examples.investment_binary_nominal_flow
             1%positive 2%positive (VInt 100)); reflexivity.
Defined.

Lemma sequence_indexing_witness :
  (is_scalar (VInt 5) = true ∧ 0 <= 2 ∧ 0 <= 2 < Z.of_nat (length [VInt 10; VInt 4; VInt 4])
   ∧ Z.of_nat (length [VInt 10; VInt 4; VInt 4]) <= 3)
  ∧ getitem (sequence (VInt 5)) 2 = Return (VInt 5)
  ∧ (∃ x, [VInt 10; VInt 4; VInt 4] !! Z.to_nat 2 = Some x
       ∧ getitem (sequence (VList [VInt 10; VInt 4; VInt 4])) 2 = Return x)
  ∧ (∃ msg, getitem (sequence (VList [VInt 10; VInt 4; VInt 4])) 3
              = Raise (IndexError msg)).
Proof.
  split; [|split_and!].
  - repeat split; (reflexivity || lia || (cbn; lia)).
  - apply (proj1 sequence_indexing (VInt 5) 2); [reflexivity | lia].
  - apply (proj1 (proj2 sequence_indexing) [VInt 10; VInt 4; VInt 4] 2). cbn; lia.
  - apply (proj2 (proj2 sequence_indexing) [VInt 10; VInt 4; VInt 4] 3). cbn; lia.
Defined.

Lemma conversion_factors_are_wrapped_witness :
  let d : gmap positive value :=
    {[ 1%positive := Examples.float_0_4;
       2%positive := VList [VInt 1; VInt 2; VInt 3] ]} in
  let t := Transformer tt (sequence <$> d) in
  (Examples.transformer_kwargs !! "conversion_factors" = Some (KDict d)
   ∧ (LinearTransformer_init Examples.accept_all [] Examples.transformer_kwargs = Return t
      ∨ LinearN1Transformer_init Examples.accept_all [] Examples.transformer_kwargs
        = Return t))
  ∧ (∃ ts, conversion_factors t !! 1%positive = Some ts
       ∧ ts = sequence Examples.float_0_4
       ∧ (is_scalar Examples.float_0_4 = true →
          ∀ i, getitem ts i = Return Examples.float_0_4)
       ∧ (∀ L i x, Examples.float_0_4 = VList L → 0 <= i →
            L !! Z.to_nat i = Some x → getitem ts i = Return x)).
Proof.
  intros d t. split.
  - split; [reflexivity | left; reflexivity].
  - apply (proj1 (proj2 (conversion_factors_are_wrapped Examples.accept_all []
                           Examples.transformer_kwargs d t eq_refl
                           (or_introl eq_refl)))
             1%positive Examples.float_0_4).
    reflexivity.
Defined.

Lemma kwargs_are_stored_witness :
  Examples.custom_flow !! "colour" = Some (VInt 7)
  ∧ ∃ s', Flow.resolve Examples.custom_flow (State ∅ []) = (Return tt, s')
      ∧ ("colour" ∉ Flow.scalars ++ Flow.sequences → self s' !! "colour" = Some (VInt 7))
      ∧ ("colour" ∈ Flow.sequences → self s' !! "colour" = Some (sequence (VInt 7)))
      ∧ ("colour" ∈ Flow.scalars → self s' !! "colour" = Some (VInt 7))
      ∧ (∀ attrs ws,
           Flow.new Examples.custom_flow = Flow.Constructed attrs ws →
           ("colour" = "min" ∨ "colour" = "max" →
            truthy (dict_get Examples.custom_flow "fixed" (VBool false)) = false) →
           ("colour" = "nominal_value" →
            truthy (dict_get_None Examples.custom_flow "investment") = false) →
           attrs !! "colour" = self s' !! "colour").
Proof.
  split.
  - reflexivity.
  - apply (kwargs_are_stored Examples.custom_flow "colour" (VInt 7)). reflexivity.
Defined.

Lemma builtin_groupings_come_first_witness :
  ([10%nat; 20%nat] ++ [30%nat]) !! 1%nat = Some 20%nat
  ∧ [40%nat; 50%nat] !! 1%nat = Some 50%nat
  ∧ effective_groupings [10%nat; 20%nat] 30%nat (EsKwargs (Some [40%nat; 50%nat]) ∅)
      !! 1%nat = Some 20%nat
  ∧ effective_groupings [10%nat; 20%nat] 30%nat (EsKwargs (Some [40%nat; 50%nat]) ∅)
      !! (length (builtin_groupings [10%nat; 20%nat] 30%nat) + 1)%nat = Some 50%nat
  ∧ (1 < length (builtin_groupings [10%nat; 20%nat] 30%nat) + 1)%nat.
Proof.
  split; [reflexivity|]. split; [reflexivity|].
  apply (proj2 (proj2 (proj2
           (builtin_groupings_come_first (system := unit)
              [10%nat; 20%nat] 30%nat (λ _, Return tt))))
           [40%nat; 50%nat] ∅ 1%nat 1%nat 20%nat 50%nat);
    reflexivity.
Defined.

Lemma absent_sequence_is_wrapped_None_witness :
  ("actual_value" ∈ Flow.sequences_without_default
   ∧ ({[ "fixed" := VBool true ]} : gmap string value) !! "actual_value" = None)
  ∧ ∃ s', Flow.resolve {[ "fixed" := VBool true ]} (State ∅ []) = (Return tt, s')
      ∧ self s' !! "actual_value" = Some (sequence VNone)
      ∧ is_None (sequence VNone) = false
      ∧ (∀ i, getitem (sequence VNone) i = Return VNone)
      ∧ (∀ attrs ws,
           Flow.new {[ "fixed" := VBool true ]} = Flow.Constructed attrs ws →
           attrs !! "actual_value" = Some (sequence VNone))
      ∧ ("actual_value" = "actual_value" →
         Flow.check_fixed_without_value s' = (Return tt, s')).
Proof.
  assert ("actual_value" ∈ Flow.sequences_without_default) as Hin
    by (apply elem_of_cons; left; reflexivity).
  split.
  - split; [exact Hin | reflexivity].
  - apply (absent_sequence_is_wrapped_None {[ "fixed" := VBool true ]} "actual_value");
      [exact Hin | reflexivity].
Defined.

(** ** The examples of the docstrings *)

(** [f = Flow(actual_value=[10, 4, 4], fixed=True, variable_costs=5)];
    [f.variable_costs[2]] is 5 and [f.actual_value[2]] is 4. *)
Example docstring_fixed_flow :
  ∃ attrs variable_costs actual_value,
    Flow.new Examples.fixed_flow = Flow.Constructed attrs []
    ∧ attrs !! "variable_costs" = Some variable_costs
    ∧ getitem variable_costs 2 = Return (VInt 5)
    ∧ attrs !! "actual_value" = Some actual_value
    ∧ getitem actual_value 2 = Return (VInt 4).
Proof.
  eexists _, (VSeq (VInt 5)), (VList [VInt 10; VInt 4; VInt 4]).
  split; [by vm_compute|]. repeat split; by vm_compute.
Qed.

(** [trsf.conversion_factors[bel][3]] is 0.4 and
    [trsf.conversion_factors[bth][2]] is 3. *)
Example docstring_transformer :
  ∃ t bel bth,
    LinearTransformer_init Examples.accept_all [] Examples.transformer_kwargs = Return t
    ∧ conversion_factors t !! 1%positive = Some bel
    ∧ getitem bel 3 = Return Examples.float_0_4
    ∧ conversion_factors t !! 2%positive = Some bth
    ∧ getitem bth 2 = Return (VInt 3).
Proof.
  eexists _, (VSeq Examples.float_0_4), (VList [VInt 1; VInt 2; VInt 3]).
  split; [by vm_compute|]. repeat split; by vm_compute.
Qed.

(** ** Further properties of [Flow] *)

Section FlowFurther.
Import Flow FlowFacts.

Implicit Types (kwargs attrs : gmap string value) (k : string) (v : value).

Lemma is_scalar_sequence v : is_scalar (sequence v) = false.
Proof. by destruct v. Qed.

Lemma sequence_time_series v : is_scalar v = false → sequence v = v.
Proof. by destruct v. Qed.

Lemma constructed_not_exclusive kwargs attrs ws :
  new kwargs = Constructed attrs ws →
  truthy (dict_get_None kwargs "investment")
  && truthy (dict_get_None kwargs "binary") = false.
Proof.
  rewrite new_closed. unfold closed.
  by destruct (truthy (dict_get_None kwargs "investment")
               && truthy (dict_get_None kwargs "binary")).
Qed.

(** X1: construction fails exactly when [investment] and [binary] are
    both true in a condition, and the only exception it ever raises is
    the "cannot be combined" [ValueError]; in every other case a flow
    is returned. *)
Theorem flow_failure_characterised kwargs :
  (∀ e ws, new kwargs = Failed e ws →
     e = ValueError msg_binary
     ∧ truthy (dict_get_None kwargs "investment") = true
     ∧ truthy (dict_get_None kwargs "binary") = true)
  ∧ (truthy (dict_get_None kwargs "investment") = true →
     truthy (dict_get_None kwargs "binary") = true →
     ∃ ws, new kwargs = Failed (ValueError msg_binary) ws)
  ∧ (truthy (dict_get_None kwargs "investment")
     && truthy (dict_get_None kwargs "binary") = false →
     ∃ attrs ws, new kwargs = Constructed attrs ws).
Proof.
  rewrite new_closed. unfold closed.
  destruct (truthy (dict_get_None kwargs "investment")) eqn:Tiv;
    destruct (truthy (dict_get_None kwargs "binary")) eqn:Tbn; cbn [andb];
    split_and!; try done; eauto.
  intros e ws [= <- _]. done.
Qed.

(** X2: [nominal_value] is reset to [None], with the one
    [SyntaxWarning], exactly when [investment] is true in a condition
    and the [nominal_value] given is not [None]; otherwise
    [nominal_value] is what the caller gave ([None] when absent) and
    no warning at all is emitted. *)
Theorem nominal_value_cleared_iff kwargs attrs ws :
  new kwargs = Constructed attrs ws →
  (truthy (dict_get_None kwargs "investment")
   && negb (is_None (dict_get_None kwargs "nominal_value")) = true →
   attrs !! "nominal_value" = Some VNone
   ∧ ws = [SyntaxWarning msg_investment])
  ∧ (truthy (dict_get_None kwargs "investment")
     && negb (is_None (dict_get_None kwargs "nominal_value")) = false →
     attrs !! "nominal_value" = Some (dict_get_None kwargs "nominal_value")
     ∧ ws = []).
Proof.
  intros Hnew.
  pose proof (constructed_lookup _ _ _ "nominal_value" Hnew) as Hlook.
  revert Hnew. rewrite new_closed. unfold closed.
  destruct (truthy (dict_get_None kwargs "investment")
            && truthy (dict_get_None kwargs "binary")); [done|].
  intros [= _ Hws].
  destruct (truthy (dict_get_None kwargs "investment")
            && negb (is_None (dict_get_None kwargs "nominal_value"))) eqn:Hclear.
  - split; [|done]. intros _. split; [|done].
    rewrite Hlook. by rewrite decide_True.
  - split; [done|]. intros _. split; [|done].
    rewrite Hlook. rewrite decide_False by (by intros [_ ?]).
    rewrite decide_False by (by intros [[?|?] _]).
    rewrite lookup_resolved_recognized by name_in_list.
    by rewrite stored_nominal_value.
Qed.

Lemma constructed_dom kwargs attrs ws k :
  new kwargs = Constructed attrs ws →
  is_Some (attrs !! k) ↔ k ∈ scalars ∨ k ∈ sequences ∨ is_Some (kwargs !! k).
Proof.
  intros Hnew. rewrite (constructed_lookup _ _ _ _ Hnew).
  case_decide as H1.
  { destruct H1 as [-> _]. split; [|done]. intros _. left. name_in_list. }
  case_decide as H2.
  { destruct H2 as [[-> | ->] _]; (split; [|done]); intros _; right; left;
      name_in_list. }
  rewrite lookup_resolved, <- elem_of_attributes.
  case_decide as Hin.
  - split; [by intros _ | by intros _; eexists].
  - split; [intros [x Hx]; discriminate | intros ?; contradiction].
Qed.


(** X3: a constructed flow has exactly the attributes named in
    [scalars], in [sequences] and in the keyword arguments: the
    fourteen recognised attributes always exist, and nothing else
    appears that the caller did not pass. *)
Theorem flow_attributes_exact kwargs attrs ws k :
  new kwargs = Constructed attrs ws →
  is_Some (attrs !! k) ↔ k ∈ scalars ∨ k ∈ sequences ∨ is_Some (kwargs !! k).
Proof. apply constructed_dom. Qed.

(** X4: the defaults.  When the caller does not pass them, [fixed] is
    [False], [min] returns 0 and [max] returns 1 at every index, and
    every other scalar attribute is [None]. *)
Theorem flow_defaults kwargs attrs ws :
  new kwargs = Constructed attrs ws →
  (kwargs !! "fixed" = None → attrs !! "fixed" = Some (VBool false))
  ∧ (kwargs !! "min" = None →
     ∃ mn, attrs !! "min" = Some mn ∧ ∀ i, getitem mn i = Return (VInt 0))
  ∧ (kwargs !! "max" = None →
     ∃ mx, attrs !! "max" = Some mx ∧ ∀ i, getitem mx i = Return (VInt 1))
  ∧ (∀ k, k ∈ scalars → k ≠ "fixed" → kwargs !! k = None →
       attrs !! k = Some VNone).
Proof.
  intros Hnew. split_and!.
  - intros Habs. rewrite (constructed_lookup _ _ _ _ Hnew).
    rewrite decide_False by (by intros [? _]).
    rewrite decide_False by (by intros [[?|?] _]).
    rewrite lookup_resolved_recognized by name_in_list.
    by rewrite stored_fixed, (dict_get_absent _ _ _ Habs).
  - intros Habs. exists (VSeq (VInt 0)). split; [|done].
    rewrite (constructed_lookup _ _ _ _ Hnew).
    rewrite decide_False by (by intros [? _]).
    case_decide; [done|].
    rewrite lookup_resolved_recognized by name_in_list.
    rewrite stored_sequence by name_in_list.
    by rewrite (dict_get_absent _ _ _ Habs).
  - intros Habs. exists (VSeq (VInt 1)). split; [|done].
    rewrite (constructed_lookup _ _ _ _ Hnew).
    rewrite decide_False by (by intros [? _]).
    case_decide; [done|].
    rewrite lookup_resolved_recognized by name_in_list.
    rewrite stored_sequence by name_in_list.
    by rewrite (dict_get_absent _ _ _ Habs).
  - intros k Hk Hfx Habs.
    assert (defaults !! k = None) as Hdef.
    { clear Habs. revert k Hk Hfx.
      apply (proj1 (Forall_forall (λ k, k ≠ "fixed" → defaults !! k = None) scalars)).
      apply (bool_decide_unpack _). by vm_compute. }
    assert (k ≠ "min" ∧ k ≠ "max") as [Hmin Hmax].
    { clear Habs Hdef Hfx. revert k Hk. apply Forall_forall.
      apply (bool_decide_unpack _). by vm_compute. }
    rewrite (constructed_lookup _ _ _ _ Hnew).
    case_decide; [done|].
    rewrite decide_False by (by intros [[?|?] _]).
    rewrite lookup_resolved_recognized by (apply elem_of_app; by left).
    rewrite stored_verbatim by (by apply not_sequence_scalar).
    rewrite (dict_get_absent _ _ _ Habs). unfold dict_get_None.
    by rewrite (dict_get_absent _ _ _ Hdef).
Qed.

End FlowFurther.

Section FlowNormalForm.
Import Flow FlowFacts.

Implicit Types (kwargs attrs : gmap string value) (k : string) (v : value).

Lemma constructed_sequence_lookup kwargs attrs ws k :
  new kwargs = Constructed attrs ws → k ∈ sequences →
  ∃ ts, attrs !! k = Some ts ∧ is_scalar ts = false.
Proof.
  intros Hnew Hk. rewrite (constructed_lookup _ _ _ _ Hnew).
  case_decide as H1.
  { destruct H1 as [-> _]. exfalso.
    by apply (not_sequence_scalar "nominal_value"); [name_in_list|]. }
  case_decide; [by eexists|].
  rewrite lookup_resolved_recognized by (apply elem_of_app; by right).
  rewrite stored_sequence by done. eexists. split; [done|].
  apply is_scalar_sequence.
Qed.

Lemma constructed_scalar_lookup kwargs attrs ws k :
  new kwargs = Constructed attrs ws → k ∈ scalars → k ≠ "nominal_value" →
  attrs !! k = Some (dict_get kwargs k (dict_get_None defaults k)).
Proof.
  intros Hnew Hk Hne. rewrite (constructed_lookup _ _ _ _ Hnew).
  rewrite decide_False by (by intros [? _]).
  rewrite decide_False.
  - rewrite lookup_resolved_recognized by (apply elem_of_app; by left).
    by rewrite stored_verbatim by (by apply not_sequence_scalar).
  - intros [[-> | ->] _];
      by apply (not_sequence_scalar _ Hk); name_in_list.
Qed.

(** The loop stores back what a constructed flow already holds. *)
Lemma resolved_constructed kwargs attrs ws :
  new kwargs = Constructed attrs ws → resolved attrs = attrs.
Proof.
  intros Hnew. apply map_eq; intros k. rewrite lookup_resolved.
  destruct (attrs !! k) as [x|] eqn:Hx.
  - rewrite decide_True by (apply elem_of_attributes; right; right; by eexists).
    f_equal. unfold stored. rewrite (dict_get_supplied _ _ _ _ Hx).
    case_decide as Hseq; [|done].
    destruct (constructed_sequence_lookup _ _ _ _ Hnew Hseq) as (ts & Hts & Hsc).
    rewrite Hx in Hts. injection Hts as ->. by apply sequence_time_series.
  - rewrite decide_False; [done|].
    rewrite elem_of_attributes. intros Hin.
    assert (is_Some (attrs !! k)) as [x Hsome].
    { destruct Hin as [?|[?|?]]; [| |done];
        apply (constructed_dom _ _ _ _ Hnew); tauto. }
    congruence.
Qed.

(** X5: Python does not fix the order in which the loop visits
    [set(scalars + sequences + list(kwargs))]; the constructor gives the
    same result, from every starting state, for every order that lists
    exactly these names (repetitions allowed). *)
Theorem flow_init_order_irrelevant kwargs (order : list string) (s : state) :
  (∀ k, k ∈ order ↔ k ∈ attributes kwargs) →
  (for_each order (resolve_attribute kwargs) ;;; validate) s = init kwargs s.
Proof.
  intros Hsame. unfold init, bind.
  by rewrite (loop_order_irrelevant _ _ _ Hsame).
Qed.

(** X6: construction is idempotent.  Passing the attributes of a
    constructed flow back to [Flow] gives a flow with the same
    attributes, and this time without any warning. *)
Theorem flow_reconstruction kwargs attrs ws :
  new kwargs = Constructed attrs ws → new attrs = Constructed attrs [].
Proof.
  intros Hnew.
  pose proof (constructed_not_exclusive _ _ _ Hnew) as Hexcl.
  assert (attrs !! "fixed" = Some (dict_get kwargs "fixed" (VBool false))) as Hfx
    by (apply (constructed_scalar_lookup _ _ _ "fixed" Hnew);
        [name_in_list | done]).
  assert (attrs !! "investment" = Some (dict_get_None kwargs "investment")) as Hiv
    by (apply (constructed_scalar_lookup _ _ _ "investment" Hnew);
        [name_in_list | done]).
  assert (attrs !! "binary" = Some (dict_get_None kwargs "binary")) as Hbn
    by (apply (constructed_scalar_lookup _ _ _ "binary" Hnew);
        [name_in_list | done]).
  pose proof (constructed_lookup _ _ _ "nominal_value" Hnew) as Hnv.
  pose proof (constructed_lookup _ _ _ "min" Hnew) as Hmin.
  pose proof (constructed_lookup _ _ _ "max" Hnew) as Hmax.
  rewrite new_closed. unfold closed.
  rewrite (resolved_constructed _ _ _ Hnew).
  rewrite (dict_get_supplied _ _ _ (VBool false) Hfx).
  replace (dict_get_None attrs "investment")
    with (dict_get_None kwargs "investment")
    by (symmetry; apply (dict_get_supplied _ _ _ _ Hiv)).
  replace (dict_get_None attrs "binary") with (dict_get_None kwargs "binary")
    by (symmetry; apply (dict_get_supplied _ _ _ _ Hbn)).
  rewrite Hexcl.
  assert (truthy (dict_get_None kwargs "investment")
          && negb (is_None (dict_get_None attrs "nominal_value")) = false) as ->.
  { destruct (truthy (dict_get_None kwargs "investment")
              && negb (is_None (dict_get_None kwargs "nominal_value"))) eqn:E.
    - rewrite decide_True in Hnv by done.
      replace (dict_get_None attrs "nominal_value") with VNone
        by (symmetry; apply (dict_get_supplied _ _ _ _ Hnv)).
      apply andb_false_r.
    - rewrite decide_False in Hnv by (by intros [_ ?]).
      rewrite decide_False in Hnv by (by intros [[?|?] _]).
      rewrite lookup_resolved_recognized in Hnv by name_in_list.
      rewrite stored_nominal_value in Hnv.
      replace (dict_get_None attrs "nominal_value")
        with (dict_get_None kwargs "nominal_value")
        by (symmetry; apply (dict_get_supplied _ _ _ _ Hnv)).
      done. }
  f_equal.
  destruct (truthy (dict_get kwargs "fixed" (VBool false))) eqn:Tfx; [|done].
  rewrite decide_False in Hmin by (by intros [? _]).
  rewrite decide_False in Hmax by (by intros [? _]).
  rewrite decide_True in Hmin by (split; [by left|done]).
  rewrite decide_True in Hmax by (split; [by right|done]).
  unfold forced. rewrite (insert_id _ _ _ Hmin). by apply insert_id.
Qed.

(** X7: every sequence attribute of a constructed flow is a time series
    (a list or a constant series), never a bare scalar and never
    [None], whatever the caller passed, also [None] or nothing. *)
Theorem sequence_attributes_are_time_series kwargs attrs ws k :
  new kwargs = Constructed attrs ws → k ∈ sequences →
  ∃ ts, attrs !! k = Some ts
    ∧ is_scalar ts = false ∧ is_None ts = false ∧ sequence ts = ts.
Proof.
  intros Hnew Hk.
  destruct (constructed_sequence_lookup _ _ _ _ Hnew Hk) as (ts & Hts & Hsc).
  exists ts. split_and!; [done..| |].
  - by destruct ts.
  - by apply sequence_time_series.
Qed.

End FlowNormalForm.

(** ** Further properties of the nodes and of the energy system *)

Section NodeFurther.

Context {node : Type}.
Variable Transformer_init : list value → gmap string kwarg → outcome node.
Variable NetworkBus_init : list value → gmap string kwarg → outcome node.

(** X8: the base class constructor runs first and its exception reaches
    the caller unchanged; and a transformer built without the
    [conversion_factors] argument has an empty [conversion_factors]
    dictionary. *)
Theorem transformer_without_conversion_factors args kwargs :
  (∀ e, Transformer_init args kwargs = Raise e →
     LinearTransformer_init Transformer_init args kwargs = Raise e
     ∧ LinearN1Transformer_init Transformer_init args kwargs = Raise e)
  ∧ (∀ n, kwargs !! "conversion_factors" = None →
       Transformer_init args kwargs = Return n →
       LinearTransformer_init Transformer_init args kwargs = Return (Transformer n ∅)
       ∧ LinearN1Transformer_init Transformer_init args kwargs
         = Return (Transformer n ∅)).
Proof.
  unfold LinearTransformer_init, LinearN1Transformer_init, conversion_factors_items.
  split.
  - intros e ->. done.
  - intros n -> ->. by rewrite fmap_empty.
Qed.

(** X10: a bus is built exactly when the base class constructor
    returns; its [balanced] attribute is [True] when the argument is
    absent and otherwise the argument as given, so that an explicit
    [None] is kept and not replaced by the default. *)
Theorem bus_balanced args kwargs :
  (∀ e, NetworkBus_init args kwargs = Raise e →
     Bus_init NetworkBus_init args kwargs = Raise e)
  ∧ (∀ n, NetworkBus_init args kwargs = Return n →
       ∃ b, Bus_init NetworkBus_init args kwargs = Return b
         ∧ bus_base b = n
         ∧ (kwargs !! "balanced" = None → balanced b = KValue (VBool true))
         ∧ (∀ x, kwargs !! "balanced" = Some x → balanced b = x)
         ∧ (balanced b = KValue (VBool true) ↔
            kwargs !! "balanced" = None
            ∨ kwargs !! "balanced" = Some (KValue (VBool true)))).
Proof.
  unfold Bus_init. split.
  - by intros e ->.
  - intros n ->. eexists. split; [done|]. cbn [bus_base balanced].
    destruct (kwargs !! "balanced") as [x|]; split_and!; try done.
    + by intros ? [= ->].
    + split; [intros ->; by right | by intros [?|[= ->]]].
    + split; [by left | done].
Qed.

End NodeFurther.

Section EnergySystemFurther.

Context {grouping : Type}.
Variable GROUPINGS : list grouping.
Variable custom_grouping : grouping.

(** X9: the list handed to the base class splits back into its two
    parts.  Its first [len(GROUPINGS) + 1] entries are [GROUPINGS]
    followed by [custom_grouping], which therefore always sits at index
    [len(GROUPINGS)]; the rest is the caller's list, unchanged and in
    order; nothing is dropped or merged, so the length is the sum. *)
Theorem effective_groupings_split (kwargs : es_kwargs grouping) :
  let user := match groupings kwargs with Some G => G | None => [] end in
  let eff := effective_groupings GROUPINGS custom_grouping kwargs in
  take (length GROUPINGS + 1) eff = GROUPINGS ++ [custom_grouping]
  ∧ drop (length GROUPINGS + 1) eff = user
  ∧ length eff = (length GROUPINGS + 1 + length user)%nat
  ∧ eff !! length GROUPINGS = Some custom_grouping.
Proof.
  intros user eff. subst eff. unfold effective_groupings. fold user.
  rewrite (app_assoc GROUPINGS [custom_grouping] user).
  assert (length (GROUPINGS ++ [custom_grouping]) = (length GROUPINGS + 1)%nat)
    as Hlen by (by rewrite length_app).
  split_and!.
  - rewrite <- Hlen. by rewrite take_app_length.
  - rewrite <- Hlen. by rewrite drop_app_length.
  - by rewrite length_app, Hlen.
  - rewrite lookup_app_l by lia. rewrite lookup_app_r by lia.
    by rewrite Nat.sub_diag.
Qed.

End EnergySystemFurther.

(** ** The further theorems at concrete inputs *)

Lemma flow_failure_characterised_witness :
  (truthy (dict_get_None Examples.investment_binary_flow "investment") = true
   ∧ truthy (dict_get_None Examples.investment_binary_flow "binary") = true)
  ∧ ∃ ws, Flow.new Examples.investment_binary_flow
            = Flow.Failed (ValueError Flow.msg_binary) ws.
Proof.
  split.
  - split; reflexivity.
  - apply (proj1 (proj2 (flow_failure_characterised Examples.investment_binary_flow)));
      reflexivity.
Defined.

Lemma nominal_value_cleared_iff_witness :
  (Flow.new Examples.investment_flow
     = Flow.Constructed (Examples.attributes_of Examples.investment_flow)
         [SyntaxWarning Flow.msg_investment]
   ∧ truthy (dict_get_None Examples.investment_flow "investment")
     && negb (is_None (dict_get_None Examples.investment_flow "nominal_value")) = true)
  ∧ Examples.attributes_of Examples.investment_flow !! "nominal_value" = Some VNone
  ∧ [SyntaxWarning Flow.msg_investment] = [SyntaxWarning Flow.msg_investment].
Proof.
  assert (Flow.new Examples.investment_flow
          = Flow.Constructed (Examples.attributes_of Examples.investment_flow)
              [SyntaxWarning Flow.msg_investment]) as Hnew
    by (vm_compute; reflexivity).
  split.
  - split; [exact Hnew | reflexivity].
  - apply (proj1 (nominal_value_cleared_iff _ _ _ Hnew)). reflexivity.
Defined.

Lemma flow_attributes_exact_witness :
  Flow.new Examples.custom_flow
    = Flow.Constructed (Examples.attributes_of Examples.custom_flow) []
  ∧ (is_Some (Examples.attributes_of Examples.custom_flow !! "colour")
     ↔ "colour" ∈ Flow.scalars ∨ "colour" ∈ Flow.sequences
       ∨ is_Some (Examples.custom_flow !! "colour")).
Proof.
  assert (Flow.new Examples.custom_flow
          = Flow.Constructed (Examples.attributes_of Examples.custom_flow) [])
    as Hnew by (vm_compute; reflexivity).
  split.
  - exact Hnew.
  - apply (flow_attributes_exact _ _ _ "colour" Hnew).
Defined.

Lemma flow_defaults_witness :
  (Flow.new Examples.custom_flow
     = Flow.Constructed (Examples.attributes_of Examples.custom_flow) []
   ∧ Examples.custom_flow !! "fixed" = None
   ∧ Examples.custom_flow !! "max" = None)
  ∧ Examples.attributes_of Examples.custom_flow !! "fixed" = Some (VBool false)
  ∧ ∃ mx, Examples.attributes_of Examples.custom_flow !! "max" = Some mx
      ∧ ∀ i, getitem mx i = Return (VInt 1).
Proof.
  assert (Flow.new Examples.custom_flow
          = Flow.Constructed (Examples.attributes_of Examples.custom_flow) [])
    as Hnew by (vm_compute; reflexivity).
  split.
  - split; [exact Hnew | split; reflexivity].
  - split.
    + apply (proj1 (flow_defaults _ _ _ Hnew)). reflexivity.
    + apply (proj1 (proj2 (proj2 (flow_defaults _ _ _ Hnew)))). reflexivity.
Defined.

Lemma flow_init_order_irrelevant_witness :
  let order := Flow.scalars ++ Flow.sequences ++ elements (dom Examples.custom_flow) in
  (∀ k, k ∈ order ↔ k ∈ Flow.attributes Examples.custom_flow)
  ∧ (for_each order (Flow.resolve_attribute Examples.custom_flow) ;;; Flow.validate)
      (State ∅ [])
    = Flow.init Examples.custom_flow (State ∅ []).
Proof.
  intros order.
  assert (∀ k, k ∈ order ↔ k ∈ Flow.attributes Examples.custom_flow) as Hsame
    by (intros k; symmetry; apply elem_of_list_to_set).
  split.
  - exact Hsame.
  - apply (flow_init_order_irrelevant _ _ _ Hsame).
Defined.

Lemma flow_reconstruction_witness :
  Flow.new Examples.investment_flow
    = Flow.Constructed (Examples.attributes_of Examples.investment_flow)
        [SyntaxWarning Flow.msg_investment]
  ∧ Flow.new (Examples.attributes_of Examples.investment_flow)
    = Flow.Constructed (Examples.attributes_of Examples.investment_flow) [].
Proof.
  assert (Flow.new Examples.investment_flow
          = Flow.Constructed (Examples.attributes_of Examples.investment_flow)
              [SyntaxWarning Flow.msg_investment]) as Hnew
    by (vm_compute; reflexivity).
  split.
  - exact Hnew.
  - apply (flow_reconstruction _ _ _ Hnew).
Defined.

Lemma sequence_attributes_are_time_series_witness :
  (Flow.new Examples.custom_flow
     = Flow.Constructed (Examples.attributes_of Examples.custom_flow) []
   ∧ "actual_value" ∈ Flow.sequences)
  ∧ ∃ ts, Examples.attributes_of Examples.custom_flow !! "actual_value" = Some ts
      ∧ is_scalar ts = false ∧ is_None ts = false ∧ sequence ts = ts.
Proof.
  assert (Flow.new Examples.custom_flow
          = Flow.Constructed (Examples.attributes_of Examples.custom_flow) [])
    as Hnew by (vm_compute; reflexivity).
  assert ("actual_value" ∈ Flow.sequences) as Hin
    by (apply elem_of_cons; left; reflexivity).
  split.
  - split; [exact Hnew | exact Hin].
  - apply (sequence_attributes_are_time_series _ _ _ _ Hnew Hin).
Defined.

Lemma transformer_without_conversion_factors_witness :
  ((∅ : gmap string kwarg) !! "conversion_factors" = None
   ∧ Examples.accept_all [] ∅ = Return tt)
  ∧ LinearTransformer_init Examples.accept_all [] ∅ = Return (Transformer tt ∅)
  ∧ LinearN1Transformer_init Examples.accept_all [] ∅ = Return (Transformer tt ∅).
Proof.
  split.
  - split; reflexivity.
  - apply (proj2 (transformer_without_conversion_factors Examples.accept_all [] ∅) tt);
      reflexivity.
Defined.

Lemma bus_balanced_witness :
  Examples.accept_all [] Examples.bus_kwargs = Return tt
  ∧ ∃ b, Bus_init Examples.accept_all [] Examples.bus_kwargs = Return b
      ∧ bus_base b = tt
      ∧ (Examples.bus_kwargs !! "balanced" = None → balanced b = KValue (VBool true))
      ∧ (∀ x, Examples.bus_kwargs !! "balanced" = Some x → balanced b = x)
      ∧ (balanced b = KValue (VBool true) ↔
         Examples.bus_kwargs !! "balanced" = None
         ∨ Examples.bus_kwargs !! "balanced" = Some (KValue (VBool true))).
Proof.
  split.
  - reflexivity.
  - apply (proj2 (bus_balanced Examples.accept_all [] Examples.bus_kwargs) tt).
    reflexivity.
Defined.
